(** * PyKIDS backend: the progress ledger of [app.py]

    A shallow embedding of the three per-user request handlers of
    [src/app.py] ([get_user_profile], [update_user_profile],
    [update_user_progress]; the first two are also the whole of
    [src/pykids-backend/app.py]) and the properties of the progress
    update that the specification states.

    Conventions of the embedding.
    - Python values that travel through the handlers (request JSON, the
      JSON stored in the [progress] column, module-level objects) are the
      type [value].  JSON numbers are integers ([Z]); floating point
      numbers are not represented.
    - The table [users] is a finite map from the [id] column to the other
      columns of the row; every SQL statement a handler executes is also
      appended to a log, so that "nothing was read or written" is a
      statement about that log.
    - A handler body is a computation in [M]: it threads the database,
      and ends with a value, with an early [return] of a response, or
      with a raised exception.  [try_] is the [try/except Exception]
      block every handler is wrapped in.
    - [firebase_admin.auth.verify_id_token] and the clock
      ([datetime.now()]) are outside the repository: the verifier is a
      section variable, the clock reading is an argument of each call.

    Layout of [update_user_progress].  The handler is its access guard
    (lines 123-129, [access_guard]), the reading and validation of the
    request (lines 131-138, in [progress_body]) and the update proper
    (lines 140-192, [apply_progress], whose computation of the new
    fields, lines 158-172, is [merge_progress]).  Line 137 evaluates the
    unbound name [null], so in the handler as written the update proper
    is never entered.  What the specification states of progress
    updates is settled on [update_user_progress] itself, as it runs;
    lemmas on [merge_progress], [apply_progress], [progress_call] and
    [run] say what lines 140-192 compute when taken alone (for string
    identifiers and integer scores) and are named [block_...] or state
    what is never changed. *)

From Stdlib Require Import ZArith String List Lia.
From stdpp Require Import gmap strings list fin_maps.

Local Open Scope string_scope.
Local Open Scope Z_scope.
Local Open Scope list_scope.

(** ** Python values *)

#[warnings="-register-all"]
Inductive value : Type :=
| VNone
| VBool (b : bool)
| VInt (z : Z)
| VStr (s : string)
| VList (l : list value)
| VDict (d : list (string * value))
| VObj (name : string).  (* a module, class or function object *)

(** [bool(v)]: the truth value Python gives [v] in [if], [not], [and], [or]. *)
Definition truthy (v : value) : bool :=
  match v with
  | VNone => false
  | VBool b => b
  | VInt z => negb (Z.eqb z 0)
  | VStr s => negb (String.eqb s "")
  | VList l => match l with [] => false | _ => true end
  | VDict d => match d with [] => false | _ => true end
  | VObj _ => true
  end.

Definition py_not (v : value) : value := VBool (negb (truthy v)).

(** [a and b] yields [a] when [a] is falsy, else [b]. *)
Definition py_and (a b : value) : value := if truthy a then b else a.

(** [a or b] yields [a] when [a] is truthy, else [b]. *)
Definition py_or (a b : value) : value := if truthy a then a else b.

Definition is_none (v : value) : bool :=
  match v with VNone => true | _ => false end.

(** [a is b], for the objects whose identity the language fixes: the
    singletons [None], [True], [False] and module-level objects. *)
Definition py_is (a b : value) : bool :=
  match a, b with
  | VNone, VNone => true
  | VBool x, VBool y => Bool.eqb x y
  | VObj n, VObj m => String.eqb n m
  | _, _ => false
  end.

Definition type_name (v : value) : string :=
  match v with
  | VNone => "NoneType"
  | VBool _ => "bool"
  | VInt _ => "int"
  | VStr _ => "str"
  | VList _ => "list"
  | VDict _ => "dict"
  | VObj n => n
  end.

(** ** Exceptions *)

Inductive exn : Type :=
| NameError (name : string)
| AttributeError (ty attr : string)
| TypeError (msg : string)
| IndexError
| VerifyError (msg : string).   (* raised by [auth.verify_id_token] *)

(** [str(e)], the text the catch-all puts in the 500 response. *)
Definition str_exn (e : exn) : string :=
  match e with
  | NameError n => "name '" +:+ n +:+ "' is not defined"
  | AttributeError ty a =>
      "'" +:+ ty +:+ "' object has no attribute '" +:+ a +:+ "'"
  | TypeError msg => msg
  | IndexError => "list index out of range"
  | VerifyError msg => msg
  end.

(** ** The stored data *)

(** One entry [progress[moduleId][topicId]]: the handler always writes
    the three keys together (lines 163-167). *)
Module Topic.
Record topic_status : Type := TopicStatus {
  completed : value;
  score : value;
  completedAt : value
}.
End Topic.
Abbreviation topic_status := Topic.topic_status.

Abbreviation progress_t := (gmap string (gmap string topic_status)).

(** A row of [users] without its key [id]. *)
Record user_row : Type := UserRow {
  email : value;
  selected_avatar : value;
  progress : option progress_t;          (* [None]: SQL NULL *)
  total_score : Z;
  created_at : string;
  last_active_lesson : option (string * string)
}.

Inductive db_event : Type :=
| DbSelect (uid : string)
| DbInsert (uid : string)
| DbUpdate (uid : string).

Record world : Type := World {
  users : gmap string user_row;
  db_log : list db_event
}.

(** ** Responses *)

Inductive reply : Type :=
| Message (msg : string)                       (* [{"message": msg}] *)
| Error (msg : string)                         (* [{"error": msg}] *)
| UserJson (columns : list string) (uid : string) (row : user_row).

Record response : Type := Response { status : Z; payload : reply }.

(** ** The handler monad *)

Inductive outcome (A : Type) : Type :=
| Ok (a : A)
| Return (r : response)
| Raise (e : exn).
Arguments Ok {A} a.
Arguments Return {A} r.
Arguments Raise {A} e.

Definition M (A : Type) : Type := world → outcome A * world.

#[global] Instance M_ret : MRet M := λ A a w, (Ok a, w).

#[global] Instance M_bind : MBind M := λ A B f m w,
  match m w with
  | (Ok a, w') => f a w'
  | (Return r, w') => (Return r, w')
  | (Raise e, w') => (Raise e, w')
  end.

Definition return_ {A} (r : response) : M A := λ w, (Return r, w).
Definition raise {A} (e : exn) : M A := λ w, (Raise e, w).

Definition lift {A} (r : exn + A) : M A :=
  match r with inl e => raise e | inr a => mret a end.

(** [jsonify({"error": msg}), code] *)
Definition error_response (code : Z) (msg : string) : response :=
  Response code (Error msg).

(** [try: ... except Exception as e: return jsonify({"error": str(e)}), 500] *)
Definition try_ (body : M response) (w : world) : response * world :=
  match body w with
  | (Ok r, w') => (r, w')
  | (Return r, w') => (r, w')
  | (Raise e, w') => (error_response 500 (str_exn e), w')
  end.

(** ** Database statements *)

(** [SELECT ... FROM users WHERE id = %s] followed by [fetchone()]. *)
Definition db_select (uid : string) : M (option user_row) := λ w,
  (Ok (users w !! uid), World (users w) (db_log w ++ [DbSelect uid])).

(** [UPDATE users SET ... WHERE id = %s RETURNING ...], [fetchone()],
    [commit()]: [set] gives the new row from the old one.  The statement
    is taken to succeed: a parameter the driver cannot adapt (a dict)
    makes [psycopg2] raise instead, which is not modelled. *)
Definition db_update (uid : string) (set : user_row → user_row)
  : M (option user_row) := λ w,
  let log := db_log w ++ [DbUpdate uid] in
  match users w !! uid with
  | Some row => (Ok (Some (set row)), World (<[uid := set row]> (users w)) log)
  | None => (Ok None, World (users w) log)
  end.

(** [INSERT INTO users ... RETURNING ...], [fetchone()], [commit()].
    Taken to succeed, as [db_update] is: properties that depend on the
    inserted row assume text or null parameters ([text_or_none]). *)
Definition db_insert (uid : string) (row : user_row)
  : M (option user_row) := λ w,
  (Ok (Some row), World (<[uid := row]> (users w)) (db_log w ++ [DbInsert uid])).

(** ** Strings and dictionaries *)

(** [s.split(sep)] for a non-empty [sep]: the pieces between the
    leftmost, non-overlapping occurrences of [sep].  [skip] counts the
    characters of a matched separator still to be dropped, [cur] is the
    piece being read. *)
Fixpoint split_go (sep : string) (skip : nat) (cur s : string) : list string :=
  match s with
  | EmptyString => [cur]
  | String c s' =>
      match skip with
      | S k => split_go sep k cur s'
      | O =>
          if String.prefix sep s
          then cur :: split_go sep (String.length sep - 1)%nat "" s'
          else split_go sep O (cur +:+ String c "") s'
      end
  end.

Definition py_split (s sep : string) : list string := split_go sep O "" s.

(** [l[i]] *)
Definition py_index {A} (l : list A) (i : nat) : M A :=
  match l !! i with
  | Some x => mret x
  | None => raise IndexError
  end.

Fixpoint assoc (k : string) (d : list (string * value)) : option value :=
  match d with
  | [] => None
  | (k', v) :: d' => if String.eqb k k' then Some v else assoc k d'
  end.

(** [data.get(k)]: [None] for a missing key; an object that is not a
    dict has no method [get]. *)
Definition dict_get (data : value) (k : string) : M value :=
  match data with
  | VDict d => mret (default VNone (assoc k d))
  | _ => raise (AttributeError (type_name data) "get")
  end.

(** A value used as a key of the [progress] object.  The keys of a JSON
    object are strings, and the progress update below is modelled for
    string identifiers.  A list or a dict is unhashable ([TypeError]).
    Python accepts numbers and booleans as keys and [json.dumps] turns
    them into strings; that coercion is not modelled, and the model
    stops with the same exception for them.  Line 137 raises before
    any key is used, so [update_user_progress] never gets here. *)
Definition dict_key (v : value) : M string :=
  match v with
  | VStr s => mret s
  | _ => raise (TypeError ("unhashable type: '" +:+ type_name v +:+ "'"))
  end.

(** [a + b] for an integer [a] (the column [total_score]): defined for
    [int] and [bool] operands.  A float operand, which Python would
    add, is outside [value]. *)
Definition int_add (a : Z) (b : value) : exn + Z :=
  match b with
  | VInt z => inr (a + z)
  | VBool x => inr (a + Z.b2z x)
  | _ => inl (TypeError ("unsupported operand type(s) for +: 'int' and '"
                         +:+ type_name b +:+ "'"))
  end.

(** ** Names bound at module level in [app.py] (lines 1-25 and the
    [def]s).  No statement binds [null], and it is no builtin. *)
Definition module_globals : list (string * value) :=
  [ ("Flask", VObj "Flask"); ("jsonify", VObj "jsonify");
    ("request", VObj "request"); ("CORS", VObj "CORS");
    ("firebase_admin", VObj "firebase_admin"); ("auth", VObj "auth");
    ("credentials", VObj "credentials"); ("psycopg2", VObj "psycopg2");
    ("RealDictCursor", VObj "RealDictCursor"); ("datetime", VObj "datetime");
    ("json", VObj "json"); ("app", VObj "app"); ("cred", VObj "cred");
    ("DB_CONFIG",
       VDict [ ("dbname", VStr "pykids"); ("user", VStr "postgres");
               ("password", VStr "Faizan@123"); ("host", VStr "localhost");
               ("port", VStr "5432") ]);
    ("get_db_connection", VObj "get_db_connection"); ("home", VObj "home");
    ("get_user_profile", VObj "get_user_profile");
    ("update_user_profile", VObj "update_user_profile");
    ("update_user_progress", VObj "update_user_progress") ].

(** Evaluating a name that is not a local variable of the handler. *)
Definition load_name (n : string) : M value :=
  match assoc n module_globals with
  | Some v => mret v
  | None => raise (NameError n)
  end.

(** ** The progress merge: lines 158-172 of [update_user_progress] *)

(** [p.get(m, {}).get(t, {}).get(field, dflt)] *)
Definition stored {A} (field : topic_status → A) (dflt : A)
    (p : progress_t) (m t : string) : A :=
  from_option field dflt (default ∅ (p !! m) !! t).

Record merged : Type := Merged {
  new_progress : progress_t;
  new_total_score : Z;
  new_last_active_lesson : string * string
}.

(** Line 159. *)
Definition is_new_completion (current_progress : progress_t)
    (module_id topic_id : string) (completed : value) : value :=
  py_and completed
         (py_not (stored Topic.completed (VBool false)
                         current_progress module_id topic_id)).

(** Lines 161-167: the [progress] object after the in-place update;
    [now] is [datetime.now().isoformat()]. *)
Definition write_topic (current_progress : progress_t)
    (module_id topic_id : string) (completed score : value) (now : string)
  : progress_t :=
  let current_progress :=
    match current_progress !! module_id with
    | None => <[module_id := ∅]> current_progress
    | Some _ => current_progress
    end in
  let entry :=
    {| Topic.completed := completed;
       Topic.score := if negb (is_none score) then score
                else stored Topic.score (VInt 0)
                            current_progress module_id topic_id;
       Topic.completedAt := if truthy completed then VStr now
                      else stored Topic.completedAt VNone
                                  current_progress module_id topic_id |} in
  alter (insert topic_id entry) module_id current_progress.

(** The entry lines 163-167 assign, read off the progress object as it
    was before the call. *)
Definition written_entry (p : progress_t) (m t : string)
    (completed score : value) (now : string) : topic_status :=
  {| Topic.completed := completed;
     Topic.score := if negb (is_none score) then score
                    else stored Topic.score (VInt 0) p m t;
     Topic.completedAt := if truthy completed then VStr now
                          else stored Topic.completedAt VNone p m t |}.

(** Line 169. *)
Definition new_score (is_new : value) (score : value) : value :=
  if truthy (py_and is_new (VBool (negb (is_none score))))
  then score else VInt 0.

Definition merge_progress (user : user_row) (module_id topic_id : string)
    (completed score : value) (now : string) : exn + merged :=
  let current_progress := default ∅ (progress user) in
  let is_new := is_new_completion current_progress module_id topic_id completed in
  let current_progress :=
    write_topic current_progress module_id topic_id completed score now in
  match int_add (total_score user) (new_score is_new score) with
  | inl e => inl e
  | inr total_score =>
      inr (Merged current_progress total_score (module_id, topic_id))
  end.

(** The [SET] clause of the [UPDATE] at lines 174-183. *)
Definition set_progress (mg : merged) (row : user_row) : user_row :=
  {| email := email row;
     selected_avatar := selected_avatar row;
     progress := Some (new_progress mg);
     total_score := new_total_score mg;
     created_at := created_at row;
     last_active_lesson := Some (new_last_active_lesson mg) |}.

Definition progress_columns : list string :=
  ["id"; "email"; "selectedAvatar"; "progress"; "totalScore"; "lastActiveLesson"].

(** Lines 140-192: what [update_user_progress] does once the request is
    validated. *)
Definition apply_progress (userId module_id topic_id : string)
    (completed score : value) (now : string) : M response :=
  user ← db_select userId;
  match user with
  | None => return_ (error_response 404 "User not found")
  | Some user =>
      mg ← lift (merge_progress user module_id topic_id completed score now);
      updated_user ← db_update userId (set_progress mg);
      match updated_user with
      | None => return_ (error_response 500 "Failed to update progress")
      | Some row => return_ (Response 200 (UserJson progress_columns userId row))
      end
  end.

(** ** The handlers *)

Record decoded_token : Type := DecodedToken {
  uid : string;
  token_email : option string
}.

Record request : Type := Request {
  authorization : option string;   (* [request.headers.get('Authorization')] *)
  json : value                     (* [request.get_json()] *)
}.

(** The refusals of lines 125, 129 and 138. *)
Abbreviation unauthenticated :=
  (error_response 401 "Missing or invalid Authorization header").
Abbreviation unauthorized :=
  (error_response 403 "Unauthorized: User ID does not match token").
Abbreviation fields_required :=
  (error_response 400 "moduleId, topicId, and completed are required").

(** [GET /] *)
Definition home : response :=
  Response 200
    (Message "Welcome to the PyKIDS backend! Try /api/users/test123/profile").

Section Handlers.

(** [firebase_admin.auth.verify_id_token]: the claims of the token, or
    the exception the library raises for a token it rejects. *)
Variable verify_id_token : string → exn + decoded_token.

(** Lines 123-129 of [src/app.py]; the same seven lines open
    [get_user_profile] and [update_user_profile]. *)
Definition access_guard (auth_header : option string) (userId : string)
  : M decoded_token :=
  match auth_header with
  | None => return_ unauthenticated
  | Some h =>
      if String.eqb h "" || negb (String.prefix "Bearer " h)
      then return_ unauthenticated
      else
        token ← py_index (py_split h "Bearer ") 1%nat;
        decoded_token ← lift (verify_id_token token);
        if negb (String.eqb (uid decoded_token) userId)
        then return_ unauthorized
        else mret decoded_token
  end.

(** Line 137: [not module_id or not topic_id or completed is null],
    evaluated left to right, stopping at the first true operand. *)
Definition fields_missing (module_id topic_id completed : value) : M bool :=
  if negb (truthy module_id) then mret true
  else if negb (truthy topic_id) then mret true
  else null ← load_name "null"; mret (py_is completed null).

(** Lines 131-192. *)
Definition progress_body (userId : string) (req : request) (now : string)
  : M response :=
  let data := json req in
  module_id ← dict_get data "moduleId";
  topic_id ← dict_get data "topicId";
  completed ← dict_get data "completed";
  score ← dict_get data "score";
  missing ← fields_missing module_id topic_id completed;
  if (missing : bool)
  then return_ fields_required
  else
    module_id ← dict_key module_id;
    topic_id ← dict_key topic_id;
    apply_progress userId module_id topic_id completed score now.

Definition update_user_progress (userId : string) (req : request)
    (now : string) : world → response * world :=
  try_ (_ ← access_guard (authorization req) userId;
        progress_body userId req now).

Definition profile_columns : list string :=
  ["id"; "email"; "selectedAvatar"; "progress"; "totalScore"; "createdAt";
   "lastActiveLesson"].

Definition profile_body (userId : string) : M response :=
  user ← db_select userId;
  match user with
  | None => return_ (error_response 404 "User not found")
  | Some row => return_ (Response 200 (UserJson profile_columns userId row))
  end.

Definition get_user_profile (userId : string) (req : request)
  : world → response * world :=
  try_ (_ ← access_guard (authorization req) userId;
        profile_body userId).

(** The row the [INSERT] of [update_user_profile] creates (lines 100-107):
    empty progress, score 0, no last active lesson. *)
Definition created_row (email selected_avatar : value) (now : string) : user_row :=
  {| email := email;
     selected_avatar := selected_avatar;
     progress := Some ∅;
     total_score := 0;
     created_at := now;
     last_active_lesson := None |}.

Definition set_avatar (selected_avatar : value) (row : user_row) : user_row :=
  {| email := email row;
     selected_avatar := selected_avatar;
     progress := progress row;
     total_score := total_score row;
     created_at := created_at row;
     last_active_lesson := last_active_lesson row |}.

Definition brief_columns : list string := ["id"; "email"; "selectedAvatar"].

(** Lines 72-116. *)
Definition upsert_body (decoded_token : decoded_token) (userId : string)
    (req : request) (now : string) : M response :=
  let data := json req in
  selected_avatar ← dict_get data "selectedAvatar";
  email ← dict_get data "email";
  user_exists ← db_select userId;
  user ←
    match user_exists with
    | Some _ =>
        if negb (truthy selected_avatar)
        then return_ (error_response 400 "selectedAvatar is required")
        else db_update userId (set_avatar selected_avatar)
    | None =>
        db_insert userId
          (created_row
             (py_or email (VStr (default "" (token_email decoded_token))))
             selected_avatar now)
    end;
  match user with
  | None => return_ (error_response 500 "Failed to update or create user")
  | Some row => return_ (Response 200 (UserJson brief_columns userId row))
  end.

Definition update_user_profile (userId : string) (req : request)
    (now : string) : world → response * world :=
  try_ (decoded_token ← access_guard (authorization req) userId;
        upsert_body decoded_token userId req now).

(** The three routes under [/api/users/<userId>/]. *)
Inductive endpoint : Type :=
| GET_profile      (* [GET  /api/users/<userId>/profile]  *)
| POST_profile     (* [POST /api/users/<userId>/profile]  *)
| PUT_progress.    (* [PUT  /api/users/<userId>/progress] *)

Definition handle (e : endpoint) (userId : string) (req : request)
    (now : string) : world → response * world :=
  match e with
  | GET_profile => get_user_profile userId req
  | POST_profile => update_user_profile userId req now
  | PUT_progress => update_user_progress userId req now
  end.

(** What each route runs after its access guard. *)
Definition endpoint_body (e : endpoint) (decoded_token : decoded_token)
    (userId : string) (req : request) (now : string) : M response :=
  match e with
  | GET_profile => profile_body userId
  | POST_profile => upsert_body decoded_token userId req now
  | PUT_progress => progress_body userId req now
  end.

End Handlers.

(** ** Sequences of progress updates on one user's row *)

(** The body of a [PUT .../progress] request with string identifiers,
    together with the clock reading of the call that serves it. *)
Module Ev.
Record event : Type := Event {
  moduleId : string;
  topicId : string;
  completed : value;
  score : value;
  now : string
}.
End Ev.
Abbreviation event := Ev.event.

Definition merge_event (row : user_row) (e : event) : exn + merged :=
  merge_progress row (Ev.moduleId e) (Ev.topicId e) (Ev.completed e)
                 (Ev.score e) (Ev.now e).

(** The user's row after [apply_progress] served [e]: updated when the
    merge succeeds, untouched when it raises. *)
Definition progress_call (row : user_row) (e : event) : user_row :=
  match merge_event row e with
  | inr mg => set_progress mg row
  | inl _ => row
  end.

Definition run (row : user_row) (es : list event) : user_row :=
  fold_left progress_call es row.

(** The entry stored at [(m, t)], if any. *)
Definition topic_at (p : progress_t) (m t : string) : option topic_status :=
  default ∅ (p !! m) !! t.

Definition progress_of (row : user_row) : progress_t := default ∅ (progress row).

(** The stored [completed] of topic [(m, t)] is true. *)
Definition is_done (row : user_row) (m t : string) : bool :=
  truthy (stored Topic.completed (VBool false) (progress_of row) m t).

Definition targets (m t : string) (e : event) : bool :=
  String.eqb (Ev.moduleId e) m && String.eqb (Ev.topicId e) t.

(** The call takes the crediting branch of line 169 (and completes). *)
Definition credited (row : user_row) (e : event) : bool :=
  match merge_event row e with
  | inr _ =>
      truthy (py_and (is_new_completion (progress_of row) (Ev.moduleId e)
                                        (Ev.topicId e) (Ev.completed e))
                     (VBool (negb (is_none (Ev.score e)))))
  | inl _ => false
  end.

(** How many calls of [es], served in order from [row], credit topic [(m, t)]. *)
Fixpoint credit_count (m t : string) (row : user_row) (es : list event) : nat :=
  match es with
  | [] => 0%nat
  | e :: es' =>
      ((if targets m t e && credited row e then 1 else 0)
       + credit_count m t (progress_call row e) es')%nat
  end.

(** Scores [int_add] accepts. *)
Definition addable (v : value) : bool :=
  match v with
  | VNone | VInt _ | VBool _ => true
  | _ => false
  end.

(** Every score but a negative integer. *)
Definition score_nonneg (v : value) : bool :=
  match v with
  | VInt z => 0 <=? z
  | _ => true
  end.

(** Rows obtained from a newly created one by progress updates whose
    scores are not negative. *)
Inductive reachable : user_row → Prop :=
| reach_created email avatar now :
    reachable (created_row email avatar now)
| reach_call row e :
    reachable row → score_nonneg (Ev.score e) = true →
    reachable (progress_call row e).

(** ** Concrete data for the examples *)

(** A verifier that knows one token, issued to user [u1]. *)
Definition demo_verify (token : string) : exn + decoded_token :=
  if String.eqb token "token-of-u1"
  then inr (DecodedToken "u1" (Some "u1@example.org"))
  else inl (VerifyError "Invalid ID token").

Definition demo_row : user_row := created_row (VStr "u1@example.org") VNone "2024-01-01T08:00:00".

Definition demo_world : world := World {[ "u1" := demo_row ]} [].

Definition demo_event (completed score : value) (now : string) : event :=
  Ev.Event "m1" "t1" completed score now.

(** The same completing event, submitted at each of the times [nows]. *)
Definition replays (m t : string) (z : Z) (nows : list string) : list event :=
  map (Ev.Event m t (VBool true) (VInt z)) nows.

(** [demo_row] after topic [(m1, t1)] was completed with score 5. *)
Definition demo_done_row : user_row :=
  progress_call demo_row (demo_event (VBool true) (VInt 5) "2024-01-02T09:00:00").

(** ** Vocabulary of the handler properties *)

(** [sep] occurs somewhere in [s] ([sep in s]). *)
Fixpoint occurs (sep s : string) : bool :=
  match s with
  | EmptyString => String.prefix sep ""
  | String _ s' => String.prefix sep s || occurs sep s'
  end.


(** The columns a progress update does not name in its [SET] clause. *)
Definition identity_columns (row : user_row) : value * value * string :=
  (email row, selected_avatar row, created_at row).

(** The columns [update_user_profile] does not name in its [UPDATE]. *)
Definition ledger_columns (row : user_row)
  : value * option progress_t * Z * string * option (string * string) :=
  (email row, progress row, total_score row, created_at row,
   last_active_lesson row).

(** The request carries a bearer token that the verifier resolves to
    [d], and [d] is the path's user. *)
Definition authorized (verify : string → exn + decoded_token)
    (req : request) (userId : string) (d : decoded_token) : Prop :=
  ∃ h token,
    authorization req = Some h
    ∧ String.prefix "Bearer " h = true
    ∧ py_split h "Bearer " !! 1%nat = Some token
    ∧ verify token = inr d
    ∧ uid d = userId.

(** A request of user [u1] with the token [demo_verify] knows. *)
Definition demo_request (body : value) : request :=
  Request (Some "Bearer token-of-u1") body.

Definition demo_token : decoded_token :=
  DecodedToken "u1" (Some "u1@example.org").

(** A table with two users. *)
Definition demo_world2 : world :=
  World (<["u2" := demo_done_row]> (users demo_world)) [].

(** ** Calls of [update_user_progress] in sequence *)

(** One [PUT .../progress] call: the path's user, the request, and the
    clock reading of the call. *)
Record call : Type := Call {
  call_user : string;
  call_request : request;
  call_now : string
}.

(** The database after the handler served [calls] in order. *)
Definition serve (verify : string → exn + decoded_token) (w : world)
    (calls : list call) : world :=
  fold_left
    (λ w c, snd (update_user_progress verify (call_user c) (call_request c)
                                      (call_now c) w))
    calls w.

(** What the table holds for topic [(m, t)] of user [uid]. *)
Definition topic_of (w : world) (uid m t : string) : option topic_status :=
  users w !! uid ≫= λ row, topic_at (progress_of row) m t.

(** The [total_score] and [last_active_lesson] columns of user [uid]. *)
Definition total_of (w : world) (uid : string) : option Z :=
  total_score <$> users w !! uid.

Definition last_active_of (w : world) (uid : string)
  : option (option (string * string)) :=
  last_active_lesson <$> users w !! uid.

(** A progress request of user [u1], with the token [demo_verify] knows. *)
Definition progress_request (m t : string) (completed score : value) : request :=
  demo_request (VDict [("moduleId", VStr m); ("topicId", VStr t);
                       ("completed", completed); ("score", score)]).

(** A table in which [u1] has completed topic [(m1, t1)] with score 5. *)
Definition demo_done_world : world := World {[ "u1" := demo_done_row ]} [].

Definition null_error : response :=
  error_response 500 "name 'null' is not defined".

(** * Properties *)

(** First the lemmas on lines 140-192 taken alone, which the frame
    properties below use; then the access guard and the validation of
    the progress request; then the handlers as they run. *)

(** ** The progress object after [write_topic] *)

Lemma stored_topic_at {A} (f : topic_status → A) (d : A) (p : progress_t) m t :
  stored f d p m t = from_option f d (topic_at p m t).
Proof. reflexivity. Qed.

Lemma write_topic_insert (p : progress_t) m t c s now :
  write_topic p m t c s now
  = <[m := <[t := written_entry p m t c s now]> (default ∅ (p !! m))]> p.
Proof.
  unfold write_topic, written_entry, stored.
  apply map_eq; intros k.
  destruct (p !! m) as [md|] eqn:Hm; simpl.
  - rewrite Hm; simpl.
    destruct (decide (k = m)) as [->|Hk].
    + rewrite lookup_alter_eq, lookup_insert_eq, Hm. reflexivity.
    + rewrite lookup_alter_ne, lookup_insert_ne by congruence. reflexivity.
  - rewrite lookup_insert_eq; simpl.
    destruct (decide (k = m)) as [->|Hk].
    + rewrite lookup_alter_eq, !lookup_insert_eq. reflexivity.
    + rewrite lookup_alter_ne, !lookup_insert_ne by congruence. reflexivity.
Qed.

Lemma topic_at_write_same (p : progress_t) m t c s now :
  topic_at (write_topic p m t c s now) m t = Some (written_entry p m t c s now).
Proof.
  rewrite write_topic_insert. unfold topic_at.
  rewrite lookup_insert_eq; simpl. apply lookup_insert_eq.
Qed.

Lemma topic_at_write_other (p : progress_t) m t c s now m' t' :
  (m', t') ≠ (m, t) →
  topic_at (write_topic p m t c s now) m' t' = topic_at p m' t'.
Proof.
  intros Hne. rewrite write_topic_insert. unfold topic_at.
  destruct (decide (m' = m)) as [->|Hm].
  - rewrite lookup_insert_eq; simpl.
    rewrite lookup_insert_ne by congruence. reflexivity.
  - rewrite lookup_insert_ne by congruence. reflexivity.
Qed.

Lemma write_topic_other_module (p : progress_t) m t c s now m' :
  m' ≠ m → write_topic p m t c s now !! m' = p !! m'.
Proof.
  intros Hne. rewrite write_topic_insert. apply lookup_insert_ne. congruence.
Qed.

(** ** The merge *)

Lemma truthy_is_new_completion (p : progress_t) m t c :
  truthy (is_new_completion p m t c)
  = truthy c && negb (truthy (stored Topic.completed (VBool false) p m t)).
Proof.
  unfold is_new_completion, py_and, py_not.
  destruct (truthy c) eqn:Hc; simpl; [reflexivity | exact Hc].
Qed.

Lemma new_score_not_new (is_new s : value) :
  truthy is_new = false → new_score is_new s = VInt 0.
Proof. intros H. unfold new_score, py_and. rewrite H, H. reflexivity. Qed.

Lemma new_score_new (is_new s : value) :
  truthy is_new = true →
  new_score is_new s = if is_none s then VInt 0 else s.
Proof.
  intros H. unfold new_score, py_and. rewrite H. simpl.
  destruct (is_none s); reflexivity.
Qed.

(** Whatever the merge returns, its progress object is [write_topic]'s and
    its marker is the pair of the event. *)
Lemma merge_progress_inr user m t c s now mg :
  merge_progress user m t c s now = inr mg →
  new_progress mg = write_topic (progress_of user) m t c s now
  ∧ new_last_active_lesson mg = (m, t).
Proof.
  unfold merge_progress, progress_of. destruct (int_add _ _); [discriminate|].
  intros [= <-]. split; reflexivity.
Qed.

(** No crediting: the total is kept, whatever the score is. *)
Lemma merge_progress_not_new user m t c s now :
  truthy (is_new_completion (progress_of user) m t c) = false →
  merge_progress user m t c s now
  = inr (Merged (write_topic (progress_of user) m t c s now)
                (total_score user) (m, t)).
Proof.
  intros H. unfold merge_progress. fold (progress_of user).
  rewrite new_score_not_new by exact H. simpl. rewrite Z.add_0_r. reflexivity.
Qed.

(** Crediting: the event's integer score is added. *)
Lemma merge_progress_new_int user m t c z now :
  truthy (is_new_completion (progress_of user) m t c) = true →
  merge_progress user m t c (VInt z) now
  = inr (Merged (write_topic (progress_of user) m t c (VInt z) now)
                (total_score user + z) (m, t)).
Proof.
  intros H. unfold merge_progress. fold (progress_of user).
  rewrite new_score_new by exact H. reflexivity.
Qed.

(** The merge completes on every score [int_add] accepts. *)
Lemma merge_progress_addable user m t c s now :
  addable s = true →
  ∃ mg, merge_progress user m t c s now = inr mg.
Proof.
  intros Hs. unfold merge_progress. fold (progress_of user).
  destruct (truthy (is_new_completion (progress_of user) m t c)) eqn:Hn.
  - rewrite new_score_new by exact Hn.
    destruct s; try discriminate; simpl; eauto.
  - rewrite new_score_not_new by exact Hn. simpl. eauto.
Qed.

Lemma progress_of_set_progress mg row :
  progress_of (set_progress mg row) = new_progress mg.
Proof. reflexivity. Qed.

(** Lines 158-167 taken alone: when the pair [(m, t)] is not in the
    stored progress, [merge_progress] returns a progress object with the
    new entry at [(m, t)], the same entry or absence as before at every
    other pair, and every other module submap as before. *)
Lemma block_lazy_structure user m t c s now :
  topic_at (progress_of user) m t = None →
  addable s = true →
  ∃ mg entry,
    merge_progress user m t c s now = inr mg
    ∧ entry = {| Topic.completed := c;
                 Topic.score := if is_none s then VInt 0 else s;
                 Topic.completedAt := if truthy c then VStr now else VNone |}
    ∧ topic_at (new_progress mg) m t = Some entry
    ∧ (∀ m' t', (m', t') ≠ (m, t) →
         topic_at (new_progress mg) m' t' = topic_at (progress_of user) m' t')
    ∧ (∀ m', m' ≠ m → new_progress mg !! m' = progress_of user !! m')
    ∧ new_progress mg !! m
      = Some (<[t := entry]> (default ∅ (progress_of user !! m))).
Proof.
  intros Habs Hs.
  destruct (merge_progress_addable user m t c s now Hs) as [mg Hmg].
  destruct (merge_progress_inr _ _ _ _ _ _ _ Hmg) as [Hp _].
  assert (Hentry : written_entry (progress_of user) m t c s now
                   = {| Topic.completed := c;
                        Topic.score := if is_none s then VInt 0 else s;
                        Topic.completedAt := if truthy c then VStr now else VNone |}).
  { unfold written_entry. rewrite !stored_topic_at, Habs. simpl.
    destruct (is_none s); reflexivity. }
  exists mg, (written_entry (progress_of user) m t c s now).
  split; [exact Hmg|]. split; [exact Hentry|]. rewrite Hp.
  split; [apply topic_at_write_same|].
  split; [intros m' t' Hne; apply topic_at_write_other; exact Hne|].
  split; [intros m' Hne; apply write_topic_other_module; exact Hne|].
  rewrite write_topic_insert. apply lookup_insert_eq.
Qed.

(** Lines 159-170 taken alone: on a topic whose stored [completed] is
    true a further completing event is no new completion; the total is
    kept and the stored score becomes the event's, if it has one. *)
Lemma block_score_overwrite user m t st c s now :
  topic_at (progress_of user) m t = Some st →
  truthy (Topic.completed st) = true →
  truthy c = true →
  ∃ mg,
    merge_progress user m t c s now = inr mg
    ∧ truthy (is_new_completion (progress_of user) m t c) = false
    ∧ new_total_score mg = total_score user
    ∧ stored Topic.score (VInt 0) (new_progress mg) m t
      = (if is_none s then Topic.score st else s).
Proof.
  intros Hst Hdone Hc.
  assert (Hn : truthy (is_new_completion (progress_of user) m t c) = false).
  { rewrite truthy_is_new_completion, stored_topic_at, Hst. simpl.
    rewrite Hdone, Hc. reflexivity. }
  eexists. split; [apply merge_progress_not_new; exact Hn|].
  split; [exact Hn|]. split; [reflexivity|]. simpl.
  rewrite stored_topic_at, topic_at_write_same. simpl.
  rewrite stored_topic_at, Hst. simpl. destruct (is_none s); reflexivity.
Qed.

(** ** The call on the database *)

(** [apply_progress] on a database that has the user's row: a [SELECT]
    and an [UPDATE], the row replaced by the merged one. *)
Lemma apply_progress_found uid row m t c s now w mg :
  users w !! uid = Some row →
  merge_progress row m t c s now = inr mg →
  apply_progress uid m t c s now w
  = (Return (Response 200 (UserJson progress_columns uid (set_progress mg row))),
     World (<[uid := set_progress mg row]> (users w))
           (db_log w ++ [DbSelect uid; DbUpdate uid])).
Proof.
  intros Hrow Hmg. unfold apply_progress, mbind, M_bind, db_select. simpl.
  rewrite Hrow, Hmg. unfold lift, mret, M_ret, db_update. simpl.
  rewrite Hrow. unfold return_. rewrite <- app_assoc. reflexivity.
Qed.

(** When the merge raises, nothing is written. *)
Lemma apply_progress_raises uid row m t c s now w e :
  users w !! uid = Some row →
  merge_progress row m t c s now = inl e →
  apply_progress uid m t c s now w
  = (Raise e, World (users w) (db_log w ++ [DbSelect uid])).
Proof.
  intros Hrow Hmg. unfold apply_progress, mbind, M_bind, db_select. simpl.
  rewrite Hrow, Hmg. reflexivity.
Qed.

(** [progress_call] is the row [apply_progress] leaves in the table. *)
Lemma apply_progress_row uid row e w :
  users w !! uid = Some row →
  users (snd (apply_progress uid (Ev.moduleId e) (Ev.topicId e)
                             (Ev.completed e) (Ev.score e) (Ev.now e) w))
    !! uid
  = Some (progress_call row e).
Proof.
  intros Hrow. unfold progress_call, merge_event.
  destruct (merge_progress row _ _ _ _ _) as [err|mg] eqn:Hmg.
  - rewrite (apply_progress_raises _ _ _ _ _ _ _ _ _ Hrow Hmg). exact Hrow.
  - rewrite (apply_progress_found _ _ _ _ _ _ _ _ _ Hrow Hmg). simpl.
    apply lookup_insert_eq.
Qed.

(** Lines 140-192 taken alone: for an existing user and a score that
    is absent or a number, [apply_progress] answers 200 and stores the
    pair of the event as [lastActiveLesson]. *)
Lemma block_last_active uid row m t c s now w :
  users w !! uid = Some row →
  addable s = true →
  ∃ row',
    fst (apply_progress uid m t c s now w)
    = Return (Response 200 (UserJson progress_columns uid row'))
    ∧ users (snd (apply_progress uid m t c s now w)) !! uid = Some row'
    ∧ last_active_lesson row' = Some (m, t).
Proof.
  intros Hrow Hs.
  destruct (merge_progress_addable row m t c s now Hs) as [mg Hmg].
  rewrite (apply_progress_found _ _ _ _ _ _ _ _ _ Hrow Hmg). simpl.
  exists (set_progress mg row). split; [reflexivity|].
  split; [apply lookup_insert_eq|]. simpl.
  destruct (merge_progress_inr _ _ _ _ _ _ _ Hmg) as [_ ->]. reflexivity.
Qed.

(** ** [completedAt] *)

(** Line 166 taken alone: replaying the completing event of topic
    [(m1, t1)] one day later would replace the stored [completedAt] by
    the time of the replay. *)
Lemma block_replay_example :
  let replay := demo_event (VBool true) (VInt 5) "2024-01-03T10:30:00" in
  stored Topic.completedAt VNone (progress_of demo_done_row) "m1" "t1"
  = VStr "2024-01-02T09:00:00"
  ∧ stored Topic.completedAt VNone
           (progress_of (progress_call demo_done_row replay)) "m1" "t1"
    = VStr "2024-01-03T10:30:00"
  ∧ stored Topic.completedAt VNone
           (progress_of (progress_call demo_done_row replay)) "m1" "t1"
    ≠ stored Topic.completedAt VNone (progress_of demo_done_row) "m1" "t1".
Proof.
  vm_compute. split; [reflexivity|]. split; [reflexivity|]. discriminate.
Qed.

(** Line 166 taken alone: an event whose [completed] is false keeps the
    stored [completedAt]; one whose [completed] is true sets it to the
    time of the call. *)
Lemma block_completedAt user m t c s now :
  (truthy c = false →
     ∃ mg, merge_progress user m t c s now = inr mg
       ∧ stored Topic.completedAt VNone (new_progress mg) m t
         = stored Topic.completedAt VNone (progress_of user) m t)
  ∧ (truthy c = true → addable s = true →
     ∃ mg, merge_progress user m t c s now = inr mg
       ∧ stored Topic.completedAt VNone (new_progress mg) m t = VStr now).
Proof.
  split.
  - intros Hc.
    assert (Hn : truthy (is_new_completion (progress_of user) m t c) = false).
    { rewrite truthy_is_new_completion, Hc. reflexivity. }
    eexists. split; [apply merge_progress_not_new; exact Hn|]. simpl.
    rewrite (stored_topic_at _ _ (write_topic _ _ _ _ _ _)), topic_at_write_same.
    simpl. rewrite Hc. reflexivity.
  - intros Hc Hs.
    destruct (merge_progress_addable user m t c s now Hs) as [mg Hmg].
    exists mg. split; [exact Hmg|].
    destruct (merge_progress_inr _ _ _ _ _ _ _ Hmg) as [-> _].
    rewrite stored_topic_at, topic_at_write_same. simpl. rewrite Hc. reflexivity.
Qed.

(** ** Un-completing and completing again *)

(** Lines 159-170 taken alone: on a completed topic an event with
    [completed = false] stores [false] and keeps [completedAt] and the
    total; the next completing event with score [z] is a new completion
    and adds [z] again. *)
Lemma block_recredit user m t st s0 z now1 now2 :
  topic_at (progress_of user) m t = Some st →
  truthy (Topic.completed st) = true →
  ∃ mg1 mg2,
    merge_progress user m t (VBool false) s0 now1 = inr mg1
    ∧ topic_at (new_progress mg1) m t
      = Some {| Topic.completed := VBool false;
                Topic.score := if is_none s0 then Topic.score st else s0;
                Topic.completedAt := Topic.completedAt st |}
    ∧ new_total_score mg1 = total_score user
    ∧ truthy (is_new_completion (new_progress mg1) m t (VBool true)) = true
    ∧ merge_progress (set_progress mg1 user) m t (VBool true) (VInt z) now2
      = inr mg2
    ∧ new_total_score mg2 = total_score user + z.
Proof.
  intros Hst Hdone.
  assert (Hn : truthy (is_new_completion (progress_of user) m t (VBool false))
               = false).
  { rewrite truthy_is_new_completion. reflexivity. }
  pose (mg1 := Merged (write_topic (progress_of user) m t (VBool false) s0 now1)
                      (total_score user) (m, t)).
  assert (Hentry : topic_at (new_progress mg1) m t
      = Some {| Topic.completed := VBool false;
                Topic.score := if is_none s0 then Topic.score st else s0;
                Topic.completedAt := Topic.completedAt st |}).
  { simpl. rewrite topic_at_write_same. unfold written_entry.
    rewrite !stored_topic_at, Hst. simpl. destruct (is_none s0); reflexivity. }
  assert (Hn2 : truthy (is_new_completion (new_progress mg1) m t (VBool true))
                = true).
  { rewrite truthy_is_new_completion, stored_topic_at, Hentry. reflexivity. }
  exists mg1. eexists.
  split; [apply merge_progress_not_new; exact Hn|].
  split; [exact Hentry|]. split; [reflexivity|]. split; [exact Hn2|].
  split; [apply merge_progress_new_int; exact Hn2|]. reflexivity.
Qed.

(** ** Crediting along a sequence of calls *)

Lemma targets_true m t e :
  targets m t e = true ↔ Ev.moduleId e = m ∧ Ev.topicId e = t.
Proof.
  unfold targets. rewrite andb_true_iff, !String.eqb_eq. reflexivity.
Qed.

Lemma targets_false m t e :
  targets m t e = false → (m, t) ≠ (Ev.moduleId e, Ev.topicId e).
Proof.
  intros H [= -> ->].
  assert (targets (Ev.moduleId e) (Ev.topicId e) e = true)
    by (apply targets_true; split; reflexivity).
  congruence.
Qed.

(** A completed topic stays completed as long as no event for it
    carries a false [completed]. *)
Lemma is_done_preserved row m t e :
  is_done row m t = true →
  (targets m t e = true → truthy (Ev.completed e) = true) →
  is_done (progress_call row e) m t = true.
Proof.
  intros Hdone He. unfold progress_call, merge_event.
  destruct (merge_progress row _ _ _ _ _) as [err|mg] eqn:Hmg; [exact Hdone|].
  destruct (merge_progress_inr _ _ _ _ _ _ _ Hmg) as [Hp _].
  unfold is_done. rewrite progress_of_set_progress, Hp, stored_topic_at.
  destruct (targets m t e) eqn:Ht.
  - apply targets_true in Ht as [<- <-].
    rewrite topic_at_write_same. simpl. apply He. reflexivity.
  - rewrite topic_at_write_other by (apply targets_false; exact Ht).
    exact Hdone.
Qed.

Lemma credited_done row m t e :
  is_done row m t = true → targets m t e = true → credited row e = false.
Proof.
  intros Hdone Ht. apply targets_true in Ht as [<- <-].
  unfold credited. destruct (merge_event row e); [reflexivity|].
  unfold py_and at 1. rewrite truthy_is_new_completion.
  unfold is_done in Hdone. rewrite Hdone, andb_false_r.
  rewrite truthy_is_new_completion, Hdone, andb_false_r. reflexivity.
Qed.

Lemma credited_makes_done row e :
  credited row e = true →
  is_done (progress_call row e) (Ev.moduleId e) (Ev.topicId e) = true.
Proof.
  unfold credited, progress_call, merge_event.
  destruct (merge_progress row _ _ _ _ _) as [err|mg] eqn:Hmg; [discriminate|].
  intros Hc. destruct (merge_progress_inr _ _ _ _ _ _ _ Hmg) as [Hp _].
  unfold is_done. rewrite progress_of_set_progress, Hp, stored_topic_at,
    topic_at_write_same. simpl.
  unfold py_and in Hc at 1.
  destruct (truthy (is_new_completion _ _ _ _)) eqn:Hn; [|congruence].
  rewrite truthy_is_new_completion in Hn.
  apply andb_true_iff in Hn as [Hn _]. exact Hn.
Qed.

Lemma credit_count_done m t row es :
  is_done row m t = true →
  (∀ e, e ∈ es → targets m t e = true → truthy (Ev.completed e) = true) →
  credit_count m t row es = 0%nat.
Proof.
  revert row. induction es as [|e es IH]; intros row Hdone Hes; [reflexivity|].
  simpl. rewrite IH.
  - destruct (targets m t e) eqn:Ht; [|reflexivity].
    rewrite (credited_done _ _ _ _ Hdone Ht). reflexivity.
  - apply is_done_preserved; [exact Hdone|]. apply Hes. left.
  - intros e' Hin. apply Hes. right. exact Hin.
Qed.

Lemma credit_count_le_1 m t row es :
  (∀ e, e ∈ es → targets m t e = true → truthy (Ev.completed e) = true) →
  (credit_count m t row es ≤ 1)%nat.
Proof.
  revert row. induction es as [|e es IH]; intros row Hes; simpl; [lia|].
  assert (Hes' : ∀ e', e' ∈ es → targets m t e' = true →
                       truthy (Ev.completed e') = true)
    by (intros e' Hin; apply Hes; right; exact Hin).
  destruct (targets m t e && credited row e) eqn:Hc.
  - apply andb_true_iff in Hc as [Ht Hc].
    pose proof (credited_makes_done _ _ Hc) as Hdone.
    apply targets_true in Ht as [Hm Ht]. rewrite Hm, Ht in Hdone.
    rewrite (credit_count_done _ _ _ _ Hdone Hes'). lia.
  - specialize (IH (progress_call row e) Hes'). lia.
Qed.

(** Replaying a completing event on a completed topic credits nothing. *)
Lemma run_replays_done m t z nows row :
  is_done row m t = true →
  total_score (run row (replays m t z nows)) = total_score row.
Proof.
  revert row. induction nows as [|now nows IH]; intros row Hdone; [reflexivity|].
  unfold replays, run in *. simpl. rewrite IH.
  - unfold progress_call, merge_event. simpl.
    rewrite merge_progress_not_new; [reflexivity|].
    rewrite truthy_is_new_completion. unfold is_done in Hdone.
    rewrite Hdone. reflexivity.
  - apply is_done_preserved; [exact Hdone|]. reflexivity.
Qed.

(** Lines 159-170 taken alone: completing topic [(m1, t1)] with score
    10, un-completing it and completing it again would take the
    crediting branch twice and leave the total at 20. *)
Lemma block_recredit_example :
  let calls := [ demo_event (VBool true) (VInt 10) "2024-01-02T09:00:00";
                 demo_event (VBool false) VNone "2024-01-03T10:30:00";
                 demo_event (VBool true) (VInt 10) "2024-01-04T11:00:00" ] in
  credit_count "m1" "t1" demo_row calls = 2%nat
  ∧ total_score demo_row = 0
  ∧ total_score (run demo_row calls) = 20.
Proof. vm_compute. repeat split; reflexivity. Qed.

(** Lines 159-170 taken alone: along a sequence in which no event for
    topic [(m, t)] carries a false [completed], at most one call takes
    the crediting branch for it; replaying one completing event with
    score [z] adds [z] once if the topic was not completed, else
    nothing. *)
Lemma block_credit_once m t row :
  (∀ es,
     (∀ e, e ∈ es → targets m t e = true → truthy (Ev.completed e) = true) →
     (credit_count m t row es ≤ 1)%nat)
  ∧ (∀ z now nows,
       total_score (run row (replays m t z (now :: nows)))
       = total_score row + (if is_done row m t then 0 else z)).
Proof.
  split; [intros es; apply credit_count_le_1|].
  intros z now nows.
  destruct (is_done row m t) eqn:Hdone.
  - rewrite run_replays_done by exact Hdone. lia.
  - change (run row (replays m t z (now :: nows)))
      with (run (progress_call row (Ev.Event m t (VBool true) (VInt z) now))
                (replays m t z nows)).
    assert (Hn : truthy (is_new_completion (progress_of row) m t (VBool true))
                 = true).
    { rewrite truthy_is_new_completion. unfold is_done in Hdone.
      rewrite Hdone. reflexivity. }
    rewrite run_replays_done.
    + unfold progress_call, merge_event. simpl.
      rewrite merge_progress_new_int by exact Hn. reflexivity.
    + unfold progress_call, merge_event. simpl.
      rewrite merge_progress_new_int by exact Hn.
      unfold is_done. rewrite progress_of_set_progress. simpl.
      rewrite stored_topic_at, topic_at_write_same. reflexivity.
Qed.

(** ** [totalScore] along reachable rows *)

Lemma progress_call_total_le row e :
  score_nonneg (Ev.score e) = true →
  total_score row ≤ total_score (progress_call row e).
Proof.
  intros Hs. unfold progress_call, merge_event, merge_progress.
  fold (progress_of row).
  destruct (truthy (is_new_completion (progress_of row) (Ev.moduleId e)
                      (Ev.topicId e) (Ev.completed e))) eqn:Hn.
  - rewrite new_score_new by exact Hn.
    destruct (Ev.score e) as [| b | z | | | |]; simpl in *;
      [lia | destruct b; simpl; lia | apply Z.leb_le in Hs; lia | lia ..].
  - rewrite new_score_not_new by exact Hn. simpl. lia.
Qed.

(** Lines 169-170 taken alone: a completing event with score -5 on a
    new row would take the total from 0 to -5. *)
Lemma block_negative_score_example :
  let row' := progress_call demo_row
                (demo_event (VBool true) (VInt (-5)) "2024-01-02T09:00:00") in
  reachable demo_row
  ∧ total_score demo_row = 0
  ∧ total_score row' = -5
  ∧ ¬ (0 ≤ total_score row')
  ∧ ¬ (total_score demo_row ≤ total_score row').
Proof.
  split; [apply reach_created|]. vm_compute.
  repeat split; try reflexivity; intros H; apply H; reflexivity.
Qed.

(** Lines 169-170 taken alone: without negative scores the total of a
    row reached from a new one stays non-negative and never decreases. *)
Lemma block_total_monotone row :
  reachable row →
  0 ≤ total_score row
  ∧ (∀ e, score_nonneg (Ev.score e) = true →
          total_score row ≤ total_score (progress_call row e)).
Proof.
  intros Hr. split; [|intros e; apply progress_call_total_le].
  induction Hr as [em av now | row e Hr IH Hs]; simpl; [lia|].
  pose proof (progress_call_total_le row e Hs). lia.
Qed.

(** ** The access guard *)

Lemma split_go_cons sep s : ∀ skip cur, ∃ x l, split_go sep skip cur s = x :: l.
Proof.
  induction s as [|ch s IH]; intros skip cur; [simpl; eauto|].
  unfold split_go; fold split_go.
  destruct skip as [|k]; [|apply IH].
  destruct (String.prefix sep (String ch s)); [eauto | apply IH].
Qed.

(** A header that starts with ["Bearer "] always yields a token. *)
Lemma bearer_token_exists h :
  String.prefix "Bearer " h = true →
  ∃ token, py_split h "Bearer " !! 1%nat = Some token.
Proof.
  intros Hp. unfold py_split. destruct h as [|ch h]; [discriminate|].
  unfold split_go; fold split_go. rewrite Hp.
  destruct (split_go_cons "Bearer " h (String.length "Bearer " - 1) "")
    as (x & l & ->).
  exists x. reflexivity.
Qed.

Section Guard.
Variable verify_id_token : string → exn + decoded_token.

Lemma access_guard_no_header userId w :
  access_guard verify_id_token None userId w = (Return unauthenticated, w).
Proof. reflexivity. Qed.

Lemma access_guard_bad_header h userId w :
  h = "" ∨ String.prefix "Bearer " h = false →
  access_guard verify_id_token (Some h) userId w = (Return unauthenticated, w).
Proof.
  intros [-> | Hp]; [reflexivity|]. unfold access_guard.
  rewrite Hp, orb_true_r. reflexivity.
Qed.

Lemma access_guard_bearer h token userId w :
  String.prefix "Bearer " h = true →
  py_split h "Bearer " !! 1%nat = Some token →
  access_guard verify_id_token (Some h) userId w
  = match verify_id_token token with
    | inl err => (Raise err, w)
    | inr d => if String.eqb (uid d) userId then (Ok d, w)
               else (Return unauthorized, w)
    end.
Proof.
  intros Hp Htok. unfold access_guard.
  assert (Hne : String.eqb h "" = false)
    by (destruct h; [discriminate | reflexivity]).
  rewrite Hne, Hp. simpl.
  unfold py_index, mbind, M_bind. rewrite Htok. simpl.
  destruct (verify_id_token token) as [err|d]; simpl; [reflexivity|].
  destruct (String.eqb (uid d) userId); reflexivity.
Qed.

(** The guard never touches the database. *)
Lemma access_guard_world oh userId w :
  snd (access_guard verify_id_token oh userId w) = w.
Proof.
  destruct oh as [h|]; [|reflexivity].
  destruct (String.prefix "Bearer " h) eqn:Hp.
  - destruct (bearer_token_exists h Hp) as [token Htok].
    rewrite (access_guard_bearer h token userId w Hp Htok).
    destruct (verify_id_token token) as [err|d]; [reflexivity|].
    destruct (String.eqb (uid d) userId); reflexivity.
  - rewrite access_guard_bad_header by (right; exact Hp). reflexivity.
Qed.

(** Every route is its guard followed by its body. *)
Lemma handle_guarded e userId req now w :
  handle verify_id_token e userId req now w
  = try_ (d ← access_guard verify_id_token (authorization req) userId;
          endpoint_body e d userId req now) w.
Proof. destruct e; reflexivity. Qed.

Lemma try_guard_return (k : decoded_token → M response) oh userId w r :
  access_guard verify_id_token oh userId w = (Return r, w) →
  try_ (d ← access_guard verify_id_token oh userId; k d) w = (r, w).
Proof. intros H. unfold try_, mbind, M_bind. rewrite H. reflexivity. Qed.

Lemma try_guard_raise (k : decoded_token → M response) oh userId w err :
  access_guard verify_id_token oh userId w = (Raise err, w) →
  try_ (d ← access_guard verify_id_token oh userId; k d) w
  = (error_response 500 (str_exn err), w).
Proof. intros H. unfold try_, mbind, M_bind. rewrite H. reflexivity. Qed.

Lemma try_guard_ok (k : decoded_token → M response) oh userId w d :
  access_guard verify_id_token oh userId w = (Ok d, w) →
  try_ (d ← access_guard verify_id_token oh userId; k d) w = try_ (k d) w.
Proof. intros H. unfold try_, mbind, M_bind. rewrite H. reflexivity. Qed.

(** C8, amended.  On each of the three per-user routes: without an
    [Authorization] header, or with one that is empty or does not start
    with ["Bearer "], the call answers 401; with a bearer token that the
    verifier rejects it answers 500 (the verifier's exception reaches
    the catch-all); with a token verified for another subject than the
    path [userId] it answers 403; in these three cases the database is
    neither read nor written.  With a token verified for [userId] itself
    the call goes on to the body of the route. *)
Theorem C8_access_guard e userId req now w :
  (authorization req = None →
     handle verify_id_token e userId req now w = (unauthenticated, w))
  ∧ (∀ h, authorization req = Some h →
          h = "" ∨ String.prefix "Bearer " h = false →
          handle verify_id_token e userId req now w = (unauthenticated, w))
  ∧ (∀ h, authorization req = Some h →
          String.prefix "Bearer " h = true →
          ∃ token,
            py_split h "Bearer " !! 1%nat = Some token
            ∧ (∀ err, verify_id_token token = inl err →
                 handle verify_id_token e userId req now w
                 = (error_response 500 (str_exn err), w))
            ∧ (∀ d, verify_id_token token = inr d → uid d ≠ userId →
                 handle verify_id_token e userId req now w = (unauthorized, w))
            ∧ (∀ d, verify_id_token token = inr d → uid d = userId →
                 handle verify_id_token e userId req now w
                 = try_ (endpoint_body e d userId req now) w)).
Proof.
  rewrite handle_guarded. split; [|split].
  - intros ->. apply try_guard_return, access_guard_no_header.
  - intros h -> Hbad. apply try_guard_return, access_guard_bad_header, Hbad.
  - intros h -> Hp. destruct (bearer_token_exists h Hp) as [token Htok].
    exists token. split; [exact Htok|].
    pose proof (access_guard_bearer h token userId w Hp Htok) as Hg.
    split; [|split].
    + intros err Hv. rewrite Hv in Hg. apply try_guard_raise, Hg.
    + intros d Hv Hne. rewrite Hv in Hg.
      apply String.eqb_neq in Hne. rewrite Hne in Hg.
      apply try_guard_return, Hg.
    + intros d Hv Heq. rewrite Hv in Hg.
      apply String.eqb_eq in Heq. rewrite Heq in Hg.
      apply (try_guard_ok (λ d, endpoint_body e d userId req now)), Hg.
Qed.

End Guard.

(** C8, as stated, fails: a request that carries a bearer token the
    verifier rejects supplies no valid token, and is answered 500, not
    401, by [update_user_progress] and by [get_user_profile]. *)
Lemma C8_counterexample :
  let req := Request (Some "Bearer expired-token") (VDict []) in
  demo_verify "expired-token" = inl (VerifyError "Invalid ID token")
  ∧ update_user_progress demo_verify "u1" req "2024-01-02T09:00:00" demo_world
    = (error_response 500 "Invalid ID token", demo_world)
  ∧ get_user_profile demo_verify "u1" req demo_world
    = (error_response 500 "Invalid ID token", demo_world)
  ∧ status (fst (update_user_progress demo_verify "u1" req
                   "2024-01-02T09:00:00" demo_world)) ≠ 401.
Proof.
  repeat split; try reflexivity. vm_compute. discriminate.
Qed.

Lemma C8_access_guard_witness :
  let now := "2024-01-02T09:00:00" in
  handle demo_verify GET_profile "u1" (Request None VNone) now demo_world
  = (unauthenticated, demo_world)
  ∧ handle demo_verify PUT_progress "u1"
           (Request (Some "Basic dTE6cHc=") (VDict [])) now demo_world
    = (unauthenticated, demo_world)
  ∧ handle demo_verify POST_profile "u2"
           (Request (Some "Bearer token-of-u1") (VDict [])) now demo_world
    = (unauthorized, demo_world)
  ∧ handle demo_verify GET_profile "u1"
           (Request (Some "Bearer token-of-u1") VNone) now demo_world
    = try_ (endpoint_body GET_profile
              (DecodedToken "u1" (Some "u1@example.org")) "u1"
              (Request (Some "Bearer token-of-u1") VNone) now) demo_world.
Proof.
  intros now. split; [|split; [|split]].
  - apply (proj1 (C8_access_guard demo_verify GET_profile "u1"
                    (Request None VNone) now demo_world)).
    reflexivity.
  - apply (proj1 (proj2 (C8_access_guard demo_verify PUT_progress "u1"
                    (Request (Some "Basic dTE6cHc=") (VDict [])) now demo_world))
             "Basic dTE6cHc="); [reflexivity | right; reflexivity].
  - destruct (proj2 (proj2 (C8_access_guard demo_verify POST_profile "u2"
                    (Request (Some "Bearer token-of-u1") (VDict [])) now
                    demo_world))
                "Bearer token-of-u1" eq_refl eq_refl)
      as (token & Htok & _ & Hother & _).
    injection Htok as <-.
    apply (Hother (DecodedToken "u1" (Some "u1@example.org")));
      [reflexivity | discriminate].
  - destruct (proj2 (proj2 (C8_access_guard demo_verify GET_profile "u1"
                    (Request (Some "Bearer token-of-u1") VNone) now
                    demo_world))
                "Bearer token-of-u1" eq_refl eq_refl)
      as (token & Htok & _ & _ & Hsame).
    injection Htok as <-.
    apply (Hsame (DecodedToken "u1" (Some "u1@example.org"))); reflexivity.
Defined.

(** ** Validation of the progress request *)

(** [null] is not among the names the module binds. *)
Lemma load_name_null w : load_name "null" w = (Raise (NameError "null"), w).
Proof. reflexivity. Qed.

(** Line 137 either finds an identifier falsy or raises [NameError]. *)
Lemma fields_missing_cases module_id topic_id completed w :
  fields_missing module_id topic_id completed w
  = if truthy module_id && truthy topic_id
    then (Raise (NameError "null"), w)
    else (Ok true, w).
Proof.
  unfold fields_missing.
  destruct (truthy module_id); simpl; [|reflexivity].
  destruct (truthy topic_id); simpl; reflexivity.
Qed.

(** All the body of [update_user_progress] can do. *)
Lemma progress_body_cases userId req now w :
  progress_body userId req now w
  = match json req with
    | VDict kv =>
        if truthy (default VNone (assoc "moduleId" kv))
           && truthy (default VNone (assoc "topicId" kv))
        then (Raise (NameError "null"), w)
        else (Return fields_required, w)
    | data => (Raise (AttributeError (type_name data) "get"), w)
    end.
Proof.
  unfold progress_body. destruct (json req) as [| | | | |kv|]; try reflexivity.
  unfold dict_get, mbind, M_bind, mret, M_ret.
  rewrite fields_missing_cases.
  destruct (truthy (default VNone (assoc "moduleId" kv))
            && truthy (default VNone (assoc "topicId" kv))); reflexivity.
Qed.

Lemma progress_body_world userId req now w :
  snd (progress_body userId req now w) = w.
Proof.
  rewrite progress_body_cases.
  destruct (json req) as [| | | | |kv|]; try reflexivity.
  destruct (truthy _ && truthy _); reflexivity.
Qed.

Section Validation.
Variable verify_id_token : string → exn + decoded_token.

(** No request to [update_user_progress] reaches a [SELECT] or the
    [UPDATE]: table and statement log come back as they were. *)
Lemma update_user_progress_world userId req now w :
  snd (update_user_progress verify_id_token userId req now w) = w.
Proof.
  unfold update_user_progress, try_, mbind, M_bind.
  pose proof (access_guard_world verify_id_token (authorization req) userId w)
    as Hw.
  destruct (access_guard verify_id_token (authorization req) userId w)
    as [[d|r|err] w']; simpl in Hw; subst w'; try reflexivity.
  pose proof (progress_body_world userId req now w) as Hb.
  destruct (progress_body userId req now w) as [[r|r|err] w']; simpl in *;
    exact Hb.
Qed.

(** A request that passes the guard with a falsy [moduleId] or [topicId]
    is answered 400. *)
Lemma update_user_progress_missing_id userId req now w d kv :
  access_guard verify_id_token (authorization req) userId w = (Ok d, w) →
  json req = VDict kv →
  truthy (default VNone (assoc "moduleId" kv)) = false
  ∨ truthy (default VNone (assoc "topicId" kv)) = false →
  update_user_progress verify_id_token userId req now w = (fields_required, w).
Proof.
  intros Hg Hj Hid. unfold update_user_progress.
  rewrite (try_guard_ok verify_id_token (λ _, progress_body userId req now)
             _ _ _ _ Hg).
  unfold try_. rewrite progress_body_cases, Hj.
  destruct Hid as [-> | ->]; rewrite ?andb_false_r; reflexivity.
Qed.

(** C3.  For a request that passes the access guard and whose JSON
    object carries truthy [moduleId] and [topicId], evaluating line 137
    raises [NameError] for the unbound name [null]; the catch-all turns
    it into the 500 response "name 'null' is not defined".  For every
    request whatsoever the handler returns the database as it received
    it, without a single [SELECT] or [UPDATE] in the log: the merge and
    the write are never reached. *)
Theorem C3_null_name_error userId req now w d kv :
  access_guard verify_id_token (authorization req) userId w = (Ok d, w) →
  json req = VDict kv →
  truthy (default VNone (assoc "moduleId" kv)) = true →
  truthy (default VNone (assoc "topicId" kv)) = true →
  fields_missing (default VNone (assoc "moduleId" kv))
                 (default VNone (assoc "topicId" kv))
                 (default VNone (assoc "completed" kv)) w
  = (Raise (NameError "null"), w)
  ∧ update_user_progress verify_id_token userId req now w
    = (error_response 500 "name 'null' is not defined", w)
  ∧ (∀ userId' req' now' w',
       snd (update_user_progress verify_id_token userId' req' now' w') = w').
Proof.
  intros Hg Hj Hm Ht. split; [|split].
  - rewrite fields_missing_cases, Hm, Ht. reflexivity.
  - unfold update_user_progress.
    rewrite (try_guard_ok verify_id_token (λ _, progress_body userId req now)
               _ _ _ _ Hg).
    unfold try_. rewrite progress_body_cases, Hj, Hm, Ht. reflexivity.
  - intros. apply update_user_progress_world.
Qed.

End Validation.

Lemma C3_null_name_error_witness :
  let req := Request (Some "Bearer token-of-u1")
               (VDict [("moduleId", VStr "m1"); ("topicId", VStr "t1");
                       ("completed", VBool true); ("score", VInt 5)]) in
  fields_missing (VStr "m1") (VStr "t1") (VBool true) demo_world
  = (Raise (NameError "null"), demo_world)
  ∧ update_user_progress demo_verify "u1" req "2024-01-02T09:00:00" demo_world
    = (error_response 500 "name 'null' is not defined", demo_world)
  ∧ (∀ userId' req' now' w',
       snd (update_user_progress demo_verify userId' req' now' w') = w').
Proof.
  intros req.
  apply (C3_null_name_error demo_verify "u1" req "2024-01-02T09:00:00"
           demo_world (DecodedToken "u1" (Some "u1@example.org"))
           [("moduleId", VStr "m1"); ("topicId", VStr "t1");
            ("completed", VBool true); ("score", VInt 5)]);
    reflexivity.
Defined.

(** C4: the code at the failing input.  A request that passes the guard
    and lacks only [completed] is answered 500, not 400; so is one whose
    [completed] is the string "yes". *)
Theorem C4_missing_completed_500 :
  let ids := [("moduleId", VStr "m1"); ("topicId", VStr "t1")] in
  update_user_progress demo_verify "u1"
    (Request (Some "Bearer token-of-u1") (VDict ids))
    "2024-01-02T09:00:00" demo_world
  = (error_response 500 "name 'null' is not defined", demo_world)
  ∧ update_user_progress demo_verify "u1"
      (Request (Some "Bearer token-of-u1")
               (VDict (ids ++ [("completed", VStr "yes")])))
      "2024-01-02T09:00:00" demo_world
    = (error_response 500 "name 'null' is not defined", demo_world).
Proof. split; reflexivity. Qed.

(** * Further properties of the handlers *)

(** ** The bearer token *)

Lemma string_app_empty_r (s : string) : s +:+ "" = s.
Proof.
  induction s as [|ch s IH]; [reflexivity|].
  change (String ch (s +:+ "") = String ch s). rewrite IH. reflexivity.
Qed.

Lemma string_app_assoc (a b c : string) : (a +:+ b) +:+ c = a +:+ b +:+ c.
Proof.
  induction a as [|ch a IH]; [reflexivity|].
  change (String ch ((a +:+ b) +:+ c) = String ch (a +:+ b +:+ c)).
  rewrite IH. reflexivity.
Qed.

Lemma split_go_skip sep t : ∀ rest cur,
  split_go sep (String.length t) cur (t +:+ rest) = split_go sep O cur rest.
Proof.
  induction t as [|ch t IH]; intros rest cur; [reflexivity|].
  change (String ch t +:+ rest) with (String ch (t +:+ rest)).
  simpl. apply IH.
Qed.

Lemma occurs_head sep ch s :
  occurs sep (String ch s) = false →
  String.prefix sep (String ch s) = false ∧ occurs sep s = false.
Proof. simpl. intros H. apply orb_false_iff in H. exact H. Qed.

(** Without an occurrence of the separator there is a single piece. *)
Lemma split_go_no_occurrence sep s : ∀ cur,
  occurs sep s = false → split_go sep O cur s = [cur +:+ s].
Proof.
  induction s as [|ch s IH]; intros cur Hocc.
  - simpl. rewrite string_app_empty_r. reflexivity.
  - destruct (occurs_head _ _ _ Hocc) as [Hp Hs].
    unfold split_go; fold split_go. rewrite Hp, IH by exact Hs.
    rewrite string_app_assoc. reflexivity.
Qed.

Lemma prefix_app (sep rest : string) : String.prefix sep (sep +:+ rest) = true.
Proof.
  induction sep as [|ch sep IH]; [destruct rest; reflexivity|].
  change (String ch sep +:+ rest) with (String ch (sep +:+ rest)).
  simpl. destruct (Ascii.ascii_dec ch ch); [exact IH | congruence].
Qed.

(** At an occurrence of the separator the current piece ends. *)
Lemma split_go_at_sep ch sep rest cur :
  split_go (String ch sep) O cur (String ch sep +:+ rest)
  = cur :: split_go (String ch sep) O "" rest.
Proof.
  pose proof (prefix_app (String ch sep) rest) as Hp.
  change (String ch sep +:+ rest) with (String ch (sep +:+ rest)) in *.
  unfold split_go; fold split_go. rewrite Hp.
  replace (String.length (String ch sep) - 1)%nat with (String.length sep)
    by (simpl; lia).
  rewrite split_go_skip. reflexivity.
Qed.

Lemma py_split_bearer tok :
  occurs "Bearer " tok = false →
  py_split ("Bearer " +:+ tok) "Bearer " = [""; tok].
Proof.
  intros Hocc. unfold py_split.
  rewrite split_go_at_sep, split_go_no_occurrence by exact Hocc. reflexivity.
Qed.

Section Routes.
Variable verify_id_token : string → exn + decoded_token.

Lemma authorized_guard req userId d :
  authorized verify_id_token req userId d →
  ∀ w, access_guard verify_id_token (authorization req) userId w = (Ok d, w).
Proof.
  intros (h & token & -> & Hp & Htok & Hv & Hu) w.
  rewrite (access_guard_bearer verify_id_token h token userId w Hp Htok), Hv.
  apply String.eqb_eq in Hu. rewrite Hu. reflexivity.
Qed.

(** X1.  For a header ["Bearer " ++ tok] in which [tok] holds no further
    ["Bearer "], the verifier is asked about exactly [tok], and the
    guard's answer is the verifier's: its exception, 403 for another
    subject, or the decoded token. *)
Theorem bearer_token_passed tok userId w :
  occurs "Bearer " tok = false →
  access_guard verify_id_token (Some ("Bearer " +:+ tok)) userId w
  = match verify_id_token tok with
    | inl err => (Raise err, w)
    | inr d => if String.eqb (uid d) userId then (Ok d, w)
               else (Return unauthorized, w)
    end.
Proof.
  intros Hocc. apply access_guard_bearer; [apply prefix_app|].
  rewrite py_split_bearer by exact Hocc. reflexivity.
Qed.

(** *** [get_user_profile] *)

Lemma get_user_profile_cases userId req d w :
  authorized verify_id_token req userId d →
  get_user_profile verify_id_token userId req w
  = (match users w !! userId with
     | Some row => Response 200 (UserJson profile_columns userId row)
     | None => error_response 404 "User not found"
     end,
     World (users w) (db_log w ++ [DbSelect userId])).
Proof.
  intros Ha. unfold get_user_profile.
  rewrite (try_guard_ok verify_id_token (λ _, profile_body userId)
             _ _ _ _ (authorized_guard _ _ _ Ha w)).
  unfold try_, profile_body, mbind, M_bind, db_select. simpl.
  destruct (users w !! userId); reflexivity.
Qed.

Lemma get_user_profile_users userId req w :
  users (snd (get_user_profile verify_id_token userId req w)) = users w.
Proof.
  unfold get_user_profile, try_, mbind, M_bind.
  pose proof (access_guard_world verify_id_token (authorization req) userId w)
    as Hw.
  destruct (access_guard verify_id_token (authorization req) userId w)
    as [[d|r|err] w']; simpl in Hw; subst w'; try reflexivity.
  unfold profile_body, mbind, M_bind, db_select. simpl.
  destruct (users w !! userId); reflexivity.
Qed.

(** X2.  An authorized [GET .../profile] runs one [SELECT] and nothing
    else: it answers 200 with the user's row, or 404 "User not found"
    when the table has no such row. *)
Theorem get_user_profile_authorized userId req d w :
  authorized verify_id_token req userId d →
  get_user_profile verify_id_token userId req w
  = (match users w !! userId with
     | Some row => Response 200 (UserJson profile_columns userId row)
     | None => error_response 404 "User not found"
     end,
     World (users w) (db_log w ++ [DbSelect userId])).
Proof.
  intros Ha. apply (get_user_profile_cases userId req d w Ha).
Qed.

(** X3.  No [GET .../profile] request, authorized or not, changes the
    table. *)
Theorem get_user_profile_read_only userId req w :
  users (snd (get_user_profile verify_id_token userId req w)) = users w.
Proof. apply get_user_profile_users. Qed.

(** *** [update_user_profile] *)

(** All the body of [update_user_profile] can do. *)
Lemma upsert_body_cases d userId req now w :
  upsert_body d userId req now w
  = match json req with
    | VDict kv =>
        let selected_avatar := default VNone (assoc "selectedAvatar" kv) in
        let email := default VNone (assoc "email" kv) in
        match users w !! userId with
        | Some row =>
            if truthy selected_avatar
            then (Return (Response 200
                    (UserJson brief_columns userId
                              (set_avatar selected_avatar row))),
                  World (<[userId := set_avatar selected_avatar row]> (users w))
                        (db_log w ++ [DbSelect userId; DbUpdate userId]))
            else (Return (error_response 400 "selectedAvatar is required"),
                  World (users w) (db_log w ++ [DbSelect userId]))
        | None =>
            let row := created_row
                         (py_or email (VStr (default "" (token_email d))))
                         selected_avatar now in
            (Return (Response 200 (UserJson brief_columns userId row)),
             World (<[userId := row]> (users w))
                   (db_log w ++ [DbSelect userId; DbInsert userId]))
        end
    | data => (Raise (AttributeError (type_name data) "get"), w)
    end.
Proof.
  unfold upsert_body. destruct (json req) as [| | | | |kv|]; try reflexivity.
  unfold dict_get, mbind, M_bind, mret, M_ret, db_select. simpl.
  destruct (users w !! userId) as [row|] eqn:Hrow.
  - destruct (truthy (default VNone (assoc "selectedAvatar" kv))); simpl;
      [|reflexivity].
    unfold db_update. simpl. rewrite Hrow. unfold return_.
    rewrite <- app_assoc. reflexivity.
  - unfold db_insert, return_. simpl. rewrite <- app_assoc. reflexivity.
Qed.

Lemma update_user_profile_authorized userId req now d w :
  authorized verify_id_token req userId d →
  update_user_profile verify_id_token userId req now w
  = try_ (upsert_body d userId req now) w.
Proof.
  intros Ha. unfold update_user_profile.
  apply (try_guard_ok verify_id_token (λ d, upsert_body d userId req now)).
  apply authorized_guard. exact Ha.
Qed.


(** X5.  For a user the table already has, an authorized [POST
    .../profile] without a (truthy) [selectedAvatar] is refused with 400
    after its [SELECT], and the table is unchanged. *)
Theorem update_user_profile_avatar_required userId req now d kv row w :
  authorized verify_id_token req userId d →
  json req = VDict kv →
  users w !! userId = Some row →
  truthy (default VNone (assoc "selectedAvatar" kv)) = false →
  update_user_profile verify_id_token userId req now w
  = (error_response 400 "selectedAvatar is required",
     World (users w) (db_log w ++ [DbSelect userId])).
Proof.
  intros Ha Hj Hrow Hav.
  rewrite (update_user_profile_authorized _ _ _ _ _ Ha).
  unfold try_. rewrite upsert_body_cases, Hj. simpl. rewrite Hrow, Hav.
  reflexivity.
Qed.


(** X7.  Whatever the request, [update_user_profile] never alters the
    e-mail, progress, score, creation time or last active lesson of a
    row the table already has. *)
Theorem update_user_profile_keeps_ledger userId req now row w :
  users w !! userId = Some row →
  ∃ row',
    users (snd (update_user_profile verify_id_token userId req now w))
      !! userId = Some row'
    ∧ ledger_columns row' = ledger_columns row.
Proof.
  intros Hrow. unfold update_user_profile, try_, mbind, M_bind.
  pose proof (access_guard_world verify_id_token (authorization req) userId w)
    as Hw.
  destruct (access_guard verify_id_token (authorization req) userId w)
    as [[d|r|err] w']; simpl in Hw; subst w'; simpl; eauto.
  rewrite upsert_body_cases.
  destruct (json req) as [| | | | |kv|]; simpl; eauto.
  rewrite Hrow.
  destruct (truthy (default VNone (assoc "selectedAvatar" kv))); simpl; eauto.
  rewrite lookup_insert_eq. eauto.
Qed.

(** X8.  A request whose JSON body is not an object (a list, a string,
    a number, null) is answered 500 by [update_user_profile] and by
    [update_user_progress], with the text of the [AttributeError] of
    [data.get], before any statement is run. *)
Theorem body_not_object userId req now d w :
  authorized verify_id_token req userId d →
  (∀ kv, json req ≠ VDict kv) →
  let answer :=
    error_response 500
      ("'" +:+ type_name (json req) +:+ "' object has no attribute 'get'") in
  update_user_profile verify_id_token userId req now w = (answer, w)
  ∧ update_user_progress verify_id_token userId req now w = (answer, w).
Proof.
  intros Ha Hno. simpl. split.
  - rewrite (update_user_profile_authorized _ _ _ _ _ Ha).
    unfold try_. rewrite upsert_body_cases.
    destruct (json req) as [| | | | |kv|]; try reflexivity.
    destruct (Hno kv eq_refl).
  - unfold update_user_progress.
    rewrite (try_guard_ok verify_id_token (λ _, progress_body userId req now)
               _ _ _ _ (authorized_guard _ _ _ Ha w)).
    unfold try_. rewrite progress_body_cases.
    destruct (json req) as [| | | | |kv|]; try reflexivity.
    destruct (Hno kv eq_refl).
Qed.

(** X9.  An authorized progress request whose [moduleId] or [topicId]
    is missing, null or empty is answered 400 "moduleId, topicId, and
    completed are required", whatever [completed] is, and no statement
    is run. *)
Theorem update_user_progress_ids_required userId req now d kv w :
  authorized verify_id_token req userId d →
  json req = VDict kv →
  truthy (default VNone (assoc "moduleId" kv)) = false
  ∨ truthy (default VNone (assoc "topicId" kv)) = false →
  update_user_progress verify_id_token userId req now w = (fields_required, w).
Proof.
  intros Ha Hj Hid.
  apply (update_user_progress_missing_id verify_id_token userId req now w d kv);
    [apply authorized_guard; exact Ha | exact Hj | exact Hid].
Qed.

(** X10.  A call on the path of one user never changes the row of
    another: on every route, for every request, the rows stored under
    other identifiers are the same after the call. *)
Theorem handle_other_users e userId req now w other :
  other ≠ userId →
  users (snd (handle verify_id_token e userId req now w)) !! other
  = users w !! other.
Proof.
  intros Hne. destruct e; simpl.
  - rewrite get_user_profile_users. reflexivity.
  - unfold update_user_profile, try_, mbind, M_bind.
    pose proof (access_guard_world verify_id_token (authorization req) userId w)
      as Hw.
    destruct (access_guard verify_id_token (authorization req) userId w)
      as [[d|r|err] w']; simpl in Hw; subst w'; simpl; try reflexivity.
    rewrite upsert_body_cases.
    destruct (json req) as [| | | | |kv|]; simpl; try reflexivity.
    destruct (users w !! userId) as [row|];
      [destruct (truthy (default VNone (assoc "selectedAvatar" kv)))|];
      simpl; try reflexivity; apply lookup_insert_ne; congruence.
  - rewrite update_user_progress_world. reflexivity.
Qed.


End Routes.

(** ** Further properties of the progress update *)

(** X15.  The update touches one row: whatever its arguments, the rows
    of other users are the same after [apply_progress]. *)
Theorem apply_progress_other_users uid m t c s now w other :
  other ≠ uid →
  users (snd (apply_progress uid m t c s now w)) !! other = users w !! other.
Proof.
  intros Hne. destruct (users w !! uid) as [row|] eqn:Hrow.
  - destruct (merge_progress row m t c s now) as [err|mg] eqn:Hmg.
    + rewrite (apply_progress_raises _ _ _ _ _ _ _ _ _ Hrow Hmg). reflexivity.
    + rewrite (apply_progress_found _ _ _ _ _ _ _ _ _ Hrow Hmg). simpl.
      apply lookup_insert_ne. congruence.
  - unfold apply_progress, mbind, M_bind, db_select. simpl. rewrite Hrow.
    reflexivity.
Qed.

Lemma progress_call_identity row e :
  identity_columns (progress_call row e) = identity_columns row.
Proof.
  unfold progress_call. destruct (merge_event row e); reflexivity.
Qed.

(** X16.  Progress updates never change the e-mail, the avatar or the
    creation time of the row, however many are applied. *)
Theorem run_keeps_identity es : ∀ row,
  identity_columns (run row es) = identity_columns row.
Proof.
  induction es as [|e es IH]; intros row; [reflexivity|].
  unfold run in *. simpl. rewrite IH. apply progress_call_identity.
Qed.





(** ** The properties above at concrete inputs *)

Lemma demo_authorized body :
  authorized demo_verify (demo_request body) "u1" demo_token.
Proof.
  exists "Bearer token-of-u1", "token-of-u1". repeat split; reflexivity.
Qed.

Lemma bearer_token_passed_witness :
  access_guard demo_verify (Some ("Bearer " +:+ "token-of-u1")) "u1" demo_world
  = (Ok demo_token, demo_world).
Proof.
  apply (bearer_token_passed demo_verify "token-of-u1" "u1" demo_world).
  reflexivity.
Defined.

Lemma get_user_profile_authorized_witness :
  get_user_profile demo_verify "u1" (demo_request VNone) demo_world
  = (Response 200 (UserJson profile_columns "u1" demo_row),
     World (users demo_world) [DbSelect "u1"]).
Proof.
  apply (get_user_profile_authorized demo_verify "u1" (demo_request VNone)
           demo_token demo_world).
  apply demo_authorized.
Defined.


Lemma update_user_profile_avatar_required_witness :
  update_user_profile demo_verify "u1"
    (demo_request (VDict [("email", VStr "new@example.org")]))
    "2024-01-02T09:00:00" demo_world
  = (error_response 400 "selectedAvatar is required",
     World (users demo_world) [DbSelect "u1"]).
Proof.
  apply (update_user_profile_avatar_required demo_verify "u1"
           (demo_request (VDict [("email", VStr "new@example.org")]))
           "2024-01-02T09:00:00" demo_token
           [("email", VStr "new@example.org")] demo_row demo_world);
    [apply demo_authorized | reflexivity ..].
Defined.


Lemma update_user_profile_keeps_ledger_witness :
  ∃ row',
    users (snd (update_user_profile demo_verify "u1"
                  (demo_request (VDict [("selectedAvatar", VStr "owl")]))
                  "2024-01-02T09:00:00"
                  (World {[ "u1" := demo_done_row ]} [])))
      !! "u1" = Some row'
    ∧ ledger_columns row' = ledger_columns demo_done_row.
Proof.
  apply (update_user_profile_keeps_ledger demo_verify "u1"
           (demo_request (VDict [("selectedAvatar", VStr "owl")]))
           "2024-01-02T09:00:00" demo_done_row
           (World {[ "u1" := demo_done_row ]} [])).
  reflexivity.
Defined.

Lemma body_not_object_witness :
  let req := demo_request (VList [VStr "m1"; VStr "t1"]) in
  let answer := error_response 500 "'list' object has no attribute 'get'" in
  update_user_profile demo_verify "u1" req "2024-01-02T09:00:00" demo_world
  = (answer, demo_world)
  ∧ update_user_progress demo_verify "u1" req "2024-01-02T09:00:00" demo_world
    = (answer, demo_world).
Proof.
  intros req answer.
  apply (body_not_object demo_verify "u1" req "2024-01-02T09:00:00"
           demo_token demo_world);
    [apply demo_authorized | discriminate].
Defined.

Lemma update_user_progress_ids_required_witness :
  let kv := [("moduleId", VStr "m1"); ("topicId", VStr "");
             ("completed", VBool true)] in
  update_user_progress demo_verify "u1" (demo_request (VDict kv))
    "2024-01-02T09:00:00" demo_world
  = (fields_required, demo_world).
Proof.
  intros kv.
  apply (update_user_progress_ids_required demo_verify "u1"
           (demo_request (VDict kv)) "2024-01-02T09:00:00" demo_token kv
           demo_world);
    [apply demo_authorized | reflexivity | right; reflexivity].
Defined.

Lemma handle_other_users_witness :
  users (snd (handle demo_verify POST_profile "u2"
                (Request (Some "Bearer token-of-u1") (VDict []))
                "2024-01-02T09:00:00" demo_world)) !! "u1"
  = users demo_world !! "u1".
Proof.
  apply (handle_other_users demo_verify POST_profile "u2"
           (Request (Some "Bearer token-of-u1") (VDict []))
           "2024-01-02T09:00:00" demo_world "u1").
  discriminate.
Defined.


Lemma apply_progress_other_users_witness :
  users (snd (apply_progress "u1" "m1" "t1" (VBool true) (VInt 5)
                "2024-01-02T09:00:00" demo_world2)) !! "u2"
  = users demo_world2 !! "u2".
Proof.
  apply (apply_progress_other_users "u1" "m1" "t1" (VBool true) (VInt 5)
           "2024-01-02T09:00:00" demo_world2 "u2").
  discriminate.
Defined.



(** ** Repeating a profile request *)

Section Repeats.
Variable verify_id_token : string → exn + decoded_token.


(** X24.  Setting the avatar is idempotent: for a user the table
    already has, sending the same authorized [POST .../profile] with a
    truthy [selectedAvatar] a second time leaves the table as the first
    call left it. *)
Theorem update_user_profile_idempotent userId req now1 now2 d kv row w :
  authorized verify_id_token req userId d →
  json req = VDict kv →
  users w !! userId = Some row →
  truthy (default VNone (assoc "selectedAvatar" kv)) = true →
  let first := update_user_profile verify_id_token userId req now1 w in
  let second := update_user_profile verify_id_token userId req now2 (snd first) in
  users (snd second) = users (snd first)
  ∧ fst second = fst first.
Proof.
  intros Ha Hj Hrow Hav. simpl.
  rewrite !(update_user_profile_authorized verify_id_token userId req _ d _ Ha).
  unfold try_. rewrite (upsert_body_cases d userId req now1 w), Hj. simpl.
  rewrite Hrow, Hav. simpl.
  rewrite upsert_body_cases, Hj. simpl. rewrite lookup_insert_eq, Hav. simpl.
  rewrite insert_insert_eq. split; reflexivity.
Qed.

End Repeats.


Lemma update_user_profile_idempotent_witness :
  let req := demo_request (VDict [("selectedAvatar", VStr "owl")]) in
  let first := update_user_profile demo_verify "u1" req
                 "2024-01-02T09:00:00" demo_world in
  let second := update_user_profile demo_verify "u1" req
                  "2024-01-05T12:00:00" (snd first) in
  users (snd second) = users (snd first)
  ∧ fst second = fst first.
Proof.
  intros req.
  apply (update_user_profile_idempotent demo_verify "u1" req
           "2024-01-02T09:00:00" "2024-01-05T12:00:00" demo_token
           [("selectedAvatar", VStr "owl")] demo_row demo_world);
    [apply demo_authorized | reflexivity ..].
Defined.

(** * Progress updates through [update_user_progress] *)

(** No sequence of calls changes the database: no statement is run. *)
Lemma serve_unchanged verify calls : ∀ w, serve verify w calls = w.
Proof.
  induction calls as [|c calls IH]; intros w; [reflexivity|].
  unfold serve in *. simpl. rewrite update_user_progress_world. apply IH.
Qed.

(** C1: the code at the failing input.  User [u1] (total 0) submits the
    same completion event, [completed = true] with score 10, twice.
    Both calls are answered 500 "name 'null' is not defined", topic
    [(m1, t1)] gets no entry and [totalScore] is still 0: the score is
    credited not once but never. *)
Theorem C1_replay_not_credited :
  let req := progress_request "m1" "t1" (VBool true) (VInt 10) in
  let first := update_user_progress demo_verify "u1" req
                 "2024-01-02T09:00:00" demo_world in
  let second := update_user_progress demo_verify "u1" req
                  "2024-01-03T10:30:00" (snd first) in
  total_of demo_world "u1" = Some 0
  ∧ fst first = null_error
  ∧ fst second = null_error
  ∧ topic_of (snd second) "u1" "m1" "t1" = None
  ∧ total_of (snd second) "u1" = Some 0.
Proof. repeat split; reflexivity. Qed.



(** C5: the code at the failing input.  Topic [(m1, t1)] of [u1] is
    stored completed with score 5; a further event with
    [completed = true] and score 9 is answered 500 and the stored score
    is still 5, not 9 ([totalScore] is unchanged, at 5). *)
Theorem C5_score_not_overwritten :
  let after := update_user_progress demo_verify "u1"
                 (progress_request "m1" "t1" (VBool true) (VInt 9))
                 "2024-01-03T10:30:00" demo_done_world in
  topic_of demo_done_world "u1" "m1" "t1"
  = Some {| Topic.completed := VBool true; Topic.score := VInt 5;
            Topic.completedAt := VStr "2024-01-02T09:00:00" |}
  ∧ fst after = null_error
  ∧ Topic.score <$> topic_of (snd after) "u1" "m1" "t1" = Some (VInt 5)
  ∧ total_of (snd after) "u1" = Some 5.
Proof. repeat split; reflexivity. Qed.

(** C6: the code at the failing input.  A valid progress call of [u1]
    for [(m2, t7)] is answered 500 and [lastActiveLesson] is still
    unset; it is not set to the event's pair. *)
Theorem C6_last_active_not_set :
  let after := update_user_progress demo_verify "u1"
                 (progress_request "m2" "t7" (VBool false) VNone)
                 "2024-01-02T09:00:00" demo_world in
  last_active_of demo_world "u1" = Some None
  ∧ fst after = null_error
  ∧ last_active_of (snd after) "u1" = Some None.
Proof. repeat split; reflexivity. Qed.

(** C7: the code at the failing input.  The progress of [u1] is empty;
    an event for the pair [(m1, t1)], not present in it, is answered
    500 and the stored progress is still empty: no entry is added. *)
Theorem C7_no_entry_written :
  let after := update_user_progress demo_verify "u1"
                 (progress_request "m1" "t1" (VBool true) (VInt 5))
                 "2024-01-02T09:00:00" demo_world in
  progress <$> users demo_world !! "u1" = Some (Some ∅)
  ∧ fst after = null_error
  ∧ progress <$> users (snd after) !! "u1" = Some (Some ∅)
  ∧ topic_of (snd after) "u1" "m1" "t1" = None.
Proof. repeat split; reflexivity. Qed.

(** C9.  Through [update_user_progress], [totalScore] is non-negative
    and never decreases: from a record as [update_user_profile] creates
    it (total 0), after any sequence of progress-update calls the total
    is at least 0, and every further call leaves it at least as large
    as it was before that call. *)
Theorem C9_total_score_monotone verify w uid email avatar created calls c :
  users w !! uid = Some (created_row email avatar created) →
  ∃ before after,
    total_of (serve verify w calls) uid = Some before
    ∧ total_of (serve verify w (calls ++ [c])) uid = Some after
    ∧ 0 ≤ before
    ∧ before ≤ after.
Proof.
  intros Hrow. exists 0, 0. rewrite !serve_unchanged.
  unfold total_of. rewrite Hrow. simpl. repeat split; lia.
Qed.

Lemma C9_total_score_monotone_witness :
  let calls := [ Call "u1" (progress_request "m1" "t1" (VBool true) (VInt 7))
                      "2024-01-02T09:00:00" ] in
  let c := Call "u1" (progress_request "m1" "t2" (VBool true) (VInt (-5)))
                "2024-01-03T10:30:00" in
  ∃ before after,
    total_of (serve demo_verify demo_world calls) "u1" = Some before
    ∧ total_of (serve demo_verify demo_world (calls ++ [c])) "u1" = Some after
    ∧ 0 ≤ before
    ∧ before ≤ after.
Proof.
  intros calls c.
  apply (C9_total_score_monotone demo_verify demo_world "u1"
           (VStr "u1@example.org") VNone "2024-01-01T08:00:00" calls c).
  reflexivity.
Defined.

(** C10: the code at the failing input.  Topic [(m1, t1)] of [u1] is
    stored completed (total 5).  An event with [completed = false] is
    answered 500 and the stored flag is still true; the following event
    with [completed = true] and score 5 is answered 500 too and
    [totalScore] is still 5: nothing is reset and nothing is credited a
    second time. *)
Theorem C10_no_reset_no_recredit :
  let first := update_user_progress demo_verify "u1"
                 (progress_request "m1" "t1" (VBool false) VNone)
                 "2024-01-03T10:30:00" demo_done_world in
  let second := update_user_progress demo_verify "u1"
                  (progress_request "m1" "t1" (VBool true) (VInt 5))
                  "2024-01-04T11:00:00" (snd first) in
  total_of demo_done_world "u1" = Some 5
  ∧ fst first = null_error
  ∧ Topic.completed <$> topic_of (snd first) "u1" "m1" "t1"
    = Some (VBool true)
  ∧ fst second = null_error
  ∧ total_of (snd second) "u1" = Some 5.
Proof. repeat split; reflexivity. Qed.
